(** * Password strength checker and secure password generator (app.py)

    A shallow embedding of the two core functions of [app.py],
    [check_password_strength] and [generate_secure_password], and the
    properties of them that the specification states.

    Python values are modelled as follows.
    - A [str] is a list of Unicode code points ([N]); [len] is the number
      of code points, as in Python 3.
    - An [int] is a [Z].
    - The four regular expressions of the checker are single character
      classes; they are kept as a small pattern syntax, and [Re.search]
      scans the subject from the left as [re.search] does.
    - The [random] module is modelled by a tape of natural numbers, one
      cell per draw; a computation that draws threads the tape and may
      raise. Quantifying over all tapes covers every outcome of the
      generator.
    - [st.session_state] is a finite map from key names to values; the
      blocks of the page script that read and write it are functions on
      that map. *)

From Stdlib Require Import ZArith NArith Ascii String Lia.
From stdpp Require Import base list strings gmap.

Local Open Scope Z_scope.

(** ** Python strings *)

Definition char := N.
Definition pystr := list char.

Definition str (s : string) : pystr :=
  N_of_ascii <$> list_ascii_of_string s.

Definition len (s : pystr) : Z := Z.of_nat (length s).

Definition ord (a : ascii) : char := N_of_ascii a.

(** ** The regular expressions of [checks] *)

Module Re.

(** The four patterns are [[A-Z]], [[a-z]], [\d] and [[!@#$%^&*]]:
    a range, the digit class, and an explicit set. *)
Inductive pattern :=
| Range (lo hi : char)
| Digit
| CharSet (cs : pystr).

Section Matching.

(** Python 3 compiles a [str] pattern in Unicode mode, where [\d] is
    every code point of general category Nd. Inside ASCII these are
    exactly [0-9]; the table for the code points from 128 on belongs
    to the interpreter ([unicodedata]) and is a parameter here. *)
Variable unicode_Nd : char -> bool.

Definition ascii_digit (c : char) : bool :=
  ((ord "0" <=? c) && (c <=? ord "9"))%N.

Definition class_digit (c : char) : bool :=
  ascii_digit c || ((128 <=? c)%N && unicode_Nd c).

Definition matches (pat : pattern) (c : char) : bool :=
  match pat with
  | Range lo hi => ((lo <=? c) && (c <=? hi))%N
  | Digit => class_digit c
  | CharSet cs => bool_decide (c ∈ cs)
  end.

(** [re.search(pattern, string)]: the position of the leftmost match,
    or [None]. *)
Fixpoint search_from (pat : pattern) (pos : nat) (s : pystr) : option nat :=
  match s with
  | [] => None
  | c :: s' => if matches pat c then Some pos else search_from pat (S pos) s'
  end.

Definition search (pat : pattern) (s : pystr) : option nat :=
  search_from pat 0 s.

End Matching.

End Re.

(** ** Strength checking *)

Section Checker.

Variable unicode_Nd : char -> bool.

Definition length_message : string := "Use at least 8 characters (12+ recommended)".

(** The state of the function body: [score] and [feedback]. *)
Definition check_state : Type := Z * list string.

(** Lines 16-21: the length branch, starting from [score = 0] and
    [feedback = []]. *)
Definition length_check (password : pystr) : check_state :=
  let score := 0 in
  let feedback := [] in
  if 12 <=? len password then (score + 2, feedback)
  else if 8 <=? len password then (score + 1, feedback)
  else (score, feedback ++ [length_message]).

(** Lines 26-31. *)
Definition checks : list (Re.pattern * string) :=
  [ (Re.Range (ord "A") (ord "Z"), "Add uppercase letter"%string);
    (Re.Range (ord "a") (ord "z"), "Add lowercase letter"%string);
    (Re.Digit, "Include digit"%string);
    (Re.CharSet (str "!@#$%^&*"), "Add special character"%string) ].

(** Lines 34-37: one iteration of the loop over [checks]. *)
Definition check_step (password : pystr) (st : check_state)
    (chk : Re.pattern * string) : check_state :=
  let '(score, feedback) := st in
  let '(pat, message) := chk in
  match Re.search unicode_Nd pat password with
  | Some _ => (score + 1, feedback)
  | None => (score, feedback ++ [message])
  end.

(** Lines 42-47. *)
Definition strength_level (score : Z) : string :=
  if score <=? 2 then "Weak"
  else if score <=? 5 then "Moderate"
  else "Strong".

Definition check_password_strength (password : pystr)
    : Z * list string * string :=
  let '(score, feedback) :=
    fold_left (check_step password) checks (length_check password) in
  (score, feedback, strength_level score).

End Checker.

(** The three components of the returned tuple. *)
Definition score_of (r : Z * list string * string) : Z := r.1.1.
Definition feedback_of (r : Z * list string * string) : list string := r.1.2.
Definition strength_of (r : Z * list string * string) : string := r.2.

(** ** Exceptions and the random module *)

Inductive exn :=
| ValueError (msg : string)
| IndexError.

Inductive result (A : Type) :=
| Ok (a : A)
| Raise (e : exn).

Arguments Ok {A} a.
Arguments Raise {A} e.

Module Random.

(** One cell of the tape is consumed per draw. *)
Definition tape := nat -> nat.

Definition M (A : Type) : Type := tape -> result (A * tape).

Definition ret {A} (a : A) : M A := fun t => Ok (a, t).

Definition bind {A B} (m : M A) (k : A -> M B) : M B :=
  fun t =>
    match m t with
    | Ok (a, t') => k a t'
    | Raise e => Raise e
    end.

Definition raise {A} (e : exn) : M A := fun _ => Raise e.

Notation "x <- m ;; k" := (bind m (fun x => k))
  (at level 100, m at next level, right associativity).

(** [_randbelow(n)], for [n > 0]: an index below [n]. *)
Definition randbelow (n : nat) : M nat :=
  fun t => Ok ((t 0 mod n)%nat, fun i => t (S i)).

(** Subscription [seq[i]]; out of range raises. *)
Definition getitem {A} (seq : list A) (i : nat) : M A :=
  match seq !! i with
  | Some a => ret a
  | None => raise IndexError
  end.

(** [random.choice(seq)]. *)
Definition choice {A} (seq : list A) : M A :=
  match seq with
  | [] => raise IndexError
  | _ => i <- randbelow (length seq) ;; getitem seq i
  end.

(** [random.choices(population, k=k)]: [k] independent draws with
    replacement. The library computes each index as
    [floor(random() * len(population))]; it is taken here as a draw below
    [len(population)]. A negative [k] gives the empty list. *)
Fixpoint choices {A} (population : list A) (k : nat) : M (list A) :=
  match k with
  | O => ret []
  | S k' =>
      i <- randbelow (length population) ;;
      a <- getitem population i ;;
      rest <- choices population k' ;;
      ret (a :: rest)
  end.

(** [x[i], x[j] = x[j], x[i]]: both reads happen first, then the
    stores to [x[i]] and to [x[j]]. *)
Definition swap {A} (x : list A) (i j : nat) : M (list A) :=
  xj <- getitem x j ;;
  xi <- getitem x i ;;
  ret (<[j := xi]> (<[i := xj]> x)).

(** The loop of [random.shuffle], [for i in reversed(range(1, len(x)))],
    entered at index [i]. *)
Fixpoint shuffle_from {A} (i : nat) (x : list A) : M (list A) :=
  match i with
  | O => ret x
  | S i' =>
      j <- randbelow (i + 1) ;;
      x' <- swap x i j ;;
      shuffle_from i' x'
  end.

Definition shuffle {A} (x : list A) : M (list A) :=
  shuffle_from (length x - 1) x.

End Random.

(** ** Generator *)

Module Str.
(** The constants of Python's [string] module. *)
Definition ascii_lowercase : pystr := str "abcdefghijklmnopqrstuvwxyz".
Definition ascii_uppercase : pystr := str "ABCDEFGHIJKLMNOPQRSTUVWXYZ".
Definition ascii_letters : pystr := ascii_lowercase ++ ascii_uppercase.
Definition digits : pystr := str "0123456789".
End Str.

Import Random.

(** Lines 54-78. [random.shuffle] rearranges the list in place and the
    function returns its characters joined; here the shuffled list is the
    returned string. *)
Definition generate_secure_password (length : Z) : M pystr :=
  if length <? 8 then
    raise (ValueError "Password length should be at least 8 characters")
  else
    uppercase <- choice Str.ascii_uppercase ;;
    lowercase <- choice Str.ascii_lowercase ;;
    digit <- choice Str.digits ;;
    symbol <- choice (str "!@#$%^&*") ;;
    let remaining := length - 4 in
    let all_chars := Str.ascii_letters ++ Str.digits ++ str "!@#$%^&*" in
    rest <- choices all_chars (Z.to_nat remaining) ;;
    let password := [uppercase] ++ [lowercase] ++ [digit] ++ [symbol] ++ rest in
    password <- shuffle password ;;
    ret password.

(** The parameter list [(length=12)]: a call without the argument binds
    the default. *)
Definition default_length : Z := 12.

Definition call_generate_secure_password (arg : option Z) : M pystr :=
  generate_secure_password (default default_length arg).

(** The outcome of a computation on a given tape, without the rest of
    the tape. *)
Definition run {A} (m : M A) (t : tape) : result A :=
  match m t with
  | Ok (a, _) => Ok a
  | Raise e => Raise e
  end.

(** ** The specification's vocabulary

    The character classes and the rule table as the specification words
    them: a membership test on one character and a suggestion message per
    rule, in the order uppercase, lowercase, digit, symbol. The checker is
    compared with these below. *)

Module Spec.

Definition is_uppercase (c : char) : bool := ((65 <=? c) && (c <=? 90))%N.
Definition is_lowercase (c : char) : bool := ((97 <=? c) && (c <=? 122))%N.
Definition is_ascii_digit (c : char) : bool := ((48 <=? c) && (c <=? 57))%N.
Definition symbol_set : pystr := [33; 64; 35; 36; 37; 94; 38; 42]%N.
Definition is_symbol (c : char) : bool := bool_decide (c ∈ symbol_set).

(** The digit rule of the checker follows [\d]: the ASCII digits and
    the decimal digits of the other scripts. *)
Definition is_digit (unicode_Nd : char -> bool) (c : char) : bool :=
  is_ascii_digit c || ((128 <=? c)%N && unicode_Nd c).

(** "The password contains at least one matching character". *)
Definition contains (test : char -> bool) (p : pystr) : bool :=
  existsb test p.

Definition rules (unicode_Nd : char -> bool) : list ((char -> bool) * string) :=
  [ (is_uppercase, "Add uppercase letter"%string);
    (is_lowercase, "Add lowercase letter"%string);
    (is_digit unicode_Nd, "Include digit"%string);
    (is_symbol, "Add special character"%string) ].

Definition b2z (b : bool) : Z := if b then 1 else 0.

(** One point per satisfied rule. *)
Definition class_points (unicode_Nd : char -> bool) (p : pystr) : Z :=
  foldr (fun r acc => b2z (contains r.1 p) + acc) 0 (rules unicode_Nd).

(** One message per unsatisfied rule, in rule order. *)
Definition class_feedback (unicode_Nd : char -> bool) (p : pystr) : list string :=
  flat_map (fun r => if contains r.1 p then [] else [r.2]) (rules unicode_Nd).

(** The five checks counted by the feedback property. *)
Definition satisfied_checks (unicode_Nd : char -> bool) (p : pystr) : Z :=
  b2z (8 <=? len p) + class_points unicode_Nd p.

(** The alphabet of the generator: ASCII letters, digits and the
    symbols. *)
Definition in_alphabet (c : char) : bool :=
  is_uppercase c || is_lowercase c || is_ascii_digit c || is_symbol c.

End Spec.

(** ** The page script

    The rest of [app.py] is the Streamlit page. Its logic is the session
    state ([st.session_state], a dictionary that outlives a run of the
    script), the callback of the "Generate Password" button, the block
    that analyses a submitted password and records it in the history,
    and two choices made while rendering: the colour of the strength bar
    and the part of a recorded password that the side bar shows. *)

(** Slicing [x[start:stop]] with step 1: a negative index counts from
    the end, and both indices are clamped to [0, len(x)]. *)
Definition slice_index (n i : Z) : Z :=
  if i <? 0 then Z.max (i + n) 0 else Z.min i n.

Definition slice {A} (x : list A) (start stop : option Z) : list A :=
  let n := Z.of_nat (length x) in
  let lo := from_option (slice_index n) 0 start in
  let hi := from_option (slice_index n) n stop in
  take (Z.to_nat (hi - lo)) (drop (Z.to_nat lo) x).

Module Session.

(** The values the script keeps in the session state. *)
Inductive value :=
| VStr (s : pystr)
| VInt (n : Z)
| VList (l : list pystr).

Abbreviation state := (gmap string value).

(** What a block of the script can raise: an exception of the generator,
    an attribute missing from the session state, or an operation on a
    value of the wrong type. *)
Inductive ui_exn :=
| Core (e : exn)
| AttributeError (name : string)
| TypeError.

(** A block either completes with a value and a session state, or
    raises; the session state at the raise is kept, since Streamlit
    reports the exception and the session goes on. *)
Inductive outcome (A : Type) :=
| Done (a : A) (ss : state)
| Failed (e : ui_exn) (ss : state).

Arguments Done {A} a ss.
Arguments Failed {A} e ss.

Definition state_of {A} (o : outcome A) : state :=
  match o with
  | Done _ ss => ss
  | Failed _ ss => ss
  end.

(** Lines 154-157. *)
Definition init_session (ss : state) : state :=
  let ss :=
    match ss !! "password_history"%string with
    | None => <["password_history"%string := VList []]> ss
    | Some _ => ss
    end in
  match ss !! "pwd_input"%string with
  | None => <["pwd_input"%string := VStr (str "")]> ss
  | Some _ => ss
  end.

(** Lines 162-165: the callback of the button. Reading a missing
    attribute raises; [length < 8] on a value that is not a number
    raises. *)
Definition update_password (ss : state) (t : tape) : outcome unit * tape :=
  match ss !! "gen_length"%string with
  | None => (Failed (AttributeError "gen_length") ss, t)
  | Some (VInt gen_length) =>
      match generate_secure_password gen_length t with
      | Ok (generated_pwd, t') =>
          (Done tt (<["pwd_input"%string := VStr generated_pwd]> ss), t')
      | Raise e => (Failed (Core e) ss, t)
      end
  | Some _ => (Failed TypeError ss, t)
  end.

(** Lines 192-198: the number input bound to the key [gen_length]; the
    widget only takes values from [min_value=8] to [max_value=32]. *)
Definition number_input (v : Z) (ss : state) : state :=
  if (8 <=? v) && (v <=? 32) then <["gen_length"%string := VInt v]> ss
  else ss.

(** Lines 181-187: the text input bound to the key [pwd_input]. *)
Definition text_input (s : pystr) (ss : state) : state :=
  <["pwd_input"%string := VStr s]> ss.

Section Analysis.

Variable unicode_Nd : char -> bool.

(** Lines 212-214: [submitted and password] holds for a submitted form
    and a password that is not empty; the evaluation is then computed and
    the password put in front of the first four entries of the history. *)
Definition analysis_results (submitted : bool) (password : pystr) (ss : state)
    : outcome (option (Z * list string * string)) :=
  if submitted && bool_decide (password <> []) then
    let r := check_password_strength unicode_Nd password in
    match ss !! "password_history"%string with
    | None => Failed (AttributeError "password_history") ss
    | Some (VList password_history) =>
        Done (Some r)
          (<["password_history"%string :=
               VList ([password] ++ slice password_history None (Some 4))]> ss)
    | Some _ => Failed TypeError ss
    end
  else Done None ss.

(** Every place of the script that writes the session state. *)
Inductive action :=
| Init
| NumberInput (v : Z)
| TextInput (s : pystr)
| Generate
| Analyse (submitted : bool) (password : pystr).

Definition step (st : state * tape) (a : action) : state * tape :=
  let '(ss, t) := st in
  match a with
  | Init => (init_session ss, t)
  | NumberInput v => (number_input v ss, t)
  | TextInput s => (text_input s ss, t)
  | Generate => let '(o, t') := update_password ss t in (state_of o, t')
  | Analyse submitted password =>
      (state_of (analysis_results submitted password ss), t)
  end.

End Analysis.

(** Line 231: the colour of the strength bar. *)
Definition bar_colour (strength : string) : string :=
  if String.eqb strength "Weak" then "#dc3545"
  else if String.eqb strength "Moderate" then "#ffc107"
  else "#28a745".

(** Line 268: the part of a recorded password shown in the side bar,
    [pwd[-4:]]. *)
Definition history_suffix (pwd : pystr) : pystr :=
  slice pwd (Some (-4)) None.

(** What the script keeps true of the three keys it writes: the history
    is a list of at most five passwords, none of them empty; the length
    is a number that the generator accepts; the input is a string. *)
Definition history_ok (ss : state) : Prop :=
  match ss !! "password_history"%string with
  | None => True
  | Some (VList h) => (length h <= 5)%nat /\ Forall (fun pw => pw <> []) h
  | Some _ => False
  end.

Definition gen_length_ok (ss : state) : Prop :=
  match ss !! "gen_length"%string with
  | None => True
  | Some (VInt n) => 8 <= n <= 32
  | Some _ => False
  end.

Definition pwd_input_ok (ss : state) : Prop :=
  match ss !! "pwd_input"%string with
  | None => True
  | Some (VStr _) => True
  | Some _ => False
  end.

Definition session_ok (ss : state) : Prop :=
  history_ok ss /\ gen_length_ok ss /\ pwd_input_ok ss.

End Session.

(** * Properties *)

(** ** Runs on concrete inputs *)

Example shuffle_run :
  run (shuffle [1; 2; 3; 4; 5]%nat) (fun i => (7 * i + 3)%nat)
  = Ok [2; 1; 5; 3; 4]%nat.
Proof. reflexivity. Qed.

Example generate_run_8 :
  run (generate_secure_password 8) (fun i => (7 * i + 3)%nat)
  = Ok (str "F7MTDk0!").
Proof. reflexivity. Qed.

Example generate_run_7 :
  run (generate_secure_password 7) (fun i => (7 * i + 3)%nat)
  = Raise (ValueError "Password length should be at least 8 characters").
Proof. reflexivity. Qed.

Example search_leftmost :
  Re.search (fun _ => false) Re.Digit (str "ab1c2") = Some 2%nat
  /\ Re.search (fun _ => false) (Re.Range (ord "A") (ord "Z")) (str "ab1c2") = None.
Proof. by vm_compute. Qed.

Example check_empty :
  check_password_strength (fun _ => false) []
  = (0, [ length_message; "Add uppercase letter"; "Add lowercase letter";
          "Include digit"; "Add special character" ]%string, "Weak"%string).
Proof. reflexivity. Qed.

(** ** The random module *)

Section RandomFacts.

Context {A : Type}.
Implicit Types (x seq population : list A) (t : tape).

Lemma randbelow_lt n t :
  (0 < n)%nat ->
  exists j, randbelow n t = Ok (j, fun i => t (S i)) /\ (j < n)%nat.
Proof.
  intros Hn. exists (t 0%nat mod n)%nat. split; [reflexivity|].
  apply Nat.mod_upper_bound. lia.
Qed.

Lemma getitem_lt seq i t :
  (i < length seq)%nat ->
  exists a, getitem seq i t = Ok (a, t) /\ seq !! i = Some a.
Proof.
  intros Hi. destruct (lookup_lt_is_Some_2 seq i Hi) as [a Ha].
  exists a. unfold getitem. rewrite Ha. done.
Qed.

Lemma choice_elem seq t :
  seq <> [] ->
  exists a t', choice seq t = Ok (a, t') /\ a ∈ seq.
Proof.
  intros Hne. destruct seq as [|a0 seq0]; [done|].
  destruct (randbelow_lt (length (a0 :: seq0)) t) as (j & Hj & Hlt); [simpl; lia|].
  destruct (getitem_lt (a0 :: seq0) j (fun i => t (S i)) Hlt) as (a & Ha & Hlk).
  exists a, (fun i => t (S i)). split.
  - unfold choice, bind. rewrite Hj. exact Ha.
  - by eapply list_elem_of_lookup_2.
Qed.

Lemma choices_elems population k t :
  population <> [] ->
  exists l t', choices population k t = Ok (l, t')
    /\ length l = k /\ Forall (fun a => a ∈ population) l.
Proof.
  intros Hne. revert t. induction k as [|k IH]; intros t.
  - exists [], t. by repeat split.
  - destruct (randbelow_lt (length population) t) as (j & Hj & Hlt).
    { destruct population; [done | simpl; lia]. }
    destruct (getitem_lt population j (fun i => t (S i)) Hlt) as (a & Ha & Hlk).
    destruct (IH (fun i => t (S i))) as (l & t' & Hl & Hlen & Hall).
    exists (a :: l), t'. split; [|split].
    + cbn [choices]. unfold bind at 1. rewrite Hj.
      unfold bind at 1. rewrite Ha.
      unfold bind at 1. rewrite Hl. reflexivity.
    + simpl. by rewrite Hlen.
    + constructor; [by eapply list_elem_of_lookup_2 | done].
Qed.

(** Exchanging two cells that exist rearranges the list. *)
Lemma swap_Permutation x i j t :
  (i < length x)%nat -> (j < length x)%nat ->
  exists x', swap x i j t = Ok (x', t) /\ x' ≡ₚ x.
Proof.
  intros Hi Hj.
  destruct (getitem_lt x j t Hj) as (xj & Hgj & Hxj).
  destruct (getitem_lt x i t Hi) as (xi & Hgi & Hxi).
  exists (<[j := xi]> (<[i := xj]> x)). split.
  - unfold swap. unfold bind at 1. rewrite Hgj.
    unfold bind at 1. rewrite Hgi. reflexivity.
  - apply Permutation_inj. split; [by rewrite !length_insert|].
    exists (fun k => if decide (k = i) then j else if decide (k = j) then i else k).
    split.
    + intros k1 k2. repeat case_decide; intros; subst; congruence.
    + intros k. rewrite !list_lookup_insert, !length_insert.
      repeat case_decide; destruct_and?; subst; try congruence; try lia;
        exfalso; intuition lia.
Qed.

Lemma shuffle_from_Permutation i x t :
  (i < length x)%nat \/ i = 0%nat ->
  exists x' t', shuffle_from i x t = Ok (x', t') /\ x' ≡ₚ x.
Proof.
  revert x t. induction i as [|i IH]; intros x t Hi.
  - exists x, t. done.
  - destruct Hi as [Hi|?]; [|lia].
    destruct (randbelow_lt (S i + 1) t) as (j & Hj & Hlt); [lia|].
    destruct (swap_Permutation x (S i) j (fun k => t (S k))) as (x1 & Hsw & Hp1);
      [lia | lia |].
    destruct (IH x1 (fun k => t (S k))) as (x' & t' & Hsh & Hp2).
    { left. rewrite (Permutation_length Hp1). lia. }
    exists x', t'. split; [|by rewrite Hp2].
    cbn [shuffle_from]. unfold bind at 1. rewrite Hj.
    unfold bind at 1. rewrite Hsw. exact Hsh.
Qed.

(** [random.shuffle] always returns, with a rearrangement of its
    argument. *)
Lemma shuffle_Permutation x t :
  exists x' t', shuffle x t = Ok (x', t') /\ x' ≡ₚ x.
Proof.
  apply shuffle_from_Permutation.
  destruct x; simpl; [by right | left; lia].
Qed.

End RandomFacts.

Lemma bind_Ok {A B} (m : M A) (k : A -> M B) t a t' :
  m t = Ok (a, t') -> bind m k t = k a t'.
Proof. intros H. unfold bind. by rewrite H. Qed.

(** ** Generator *)

(** What a successful run is made of: one character of each class, the
    filler, and a rearrangement of their concatenation. *)
Lemma generate_shape (n : Z) (t : tape) :
  8 <= n ->
  exists u l d s rest pw t',
    generate_secure_password n t = Ok (pw, t')
    /\ u ∈ Str.ascii_uppercase /\ l ∈ Str.ascii_lowercase
    /\ d ∈ Str.digits /\ s ∈ str "!@#$%^&*"
    /\ length rest = Z.to_nat (n - 4)
    /\ Forall (fun a => a ∈ Str.ascii_letters ++ Str.digits ++ str "!@#$%^&*") rest
    /\ pw ≡ₚ u :: l :: d :: s :: rest.
Proof.
  intros Hn. unfold generate_secure_password.
  destruct (n <? 8) eqn:Hlt; [apply Z.ltb_lt in Hlt; lia|].
  destruct (choice_elem Str.ascii_uppercase t) as (u & t1 & Hu & Huin); [done|].
  destruct (choice_elem Str.ascii_lowercase t1) as (l & t2 & Hl & Hlin); [done|].
  destruct (choice_elem Str.digits t2) as (d & t3 & Hd & Hdin); [done|].
  destruct (choice_elem (str "!@#$%^&*") t3) as (s & t4 & Hs & Hsin); [done|].
  destruct (choices_elems (Str.ascii_letters ++ Str.digits ++ str "!@#$%^&*")
              (Z.to_nat (n - 4)) t4) as (rest & t5 & Hr & Hrlen & Hrin); [done|].
  destruct (shuffle_Permutation ([u] ++ [l] ++ [d] ++ [s] ++ rest) t5)
    as (pw & t6 & Hsh & Hperm).
  exists u, l, d, s, rest, pw, t6.
  rewrite (bind_Ok _ _ _ _ _ Hu), (bind_Ok _ _ _ _ _ Hl),
    (bind_Ok _ _ _ _ _ Hd), (bind_Ok _ _ _ _ _ Hs).
  cbv zeta. rewrite (bind_Ok _ _ _ _ _ Hr), (bind_Ok _ _ _ _ _ Hsh).
  repeat split; done.
Qed.

Lemma generate_short (n : Z) (t : tape) :
  n < 8 ->
  generate_secure_password n t =
    Raise (ValueError "Password length should be at least 8 characters").
Proof.
  intros Hn. unfold generate_secure_password.
  destruct (n <? 8) eqn:Hlt; [done | apply Z.ltb_ge in Hlt; lia].
Qed.

(** Membership in the constants of the generator, in terms of the
    specification's classes. *)
Lemma uppercase_class c : c ∈ Str.ascii_uppercase -> Spec.is_uppercase c = true.
Proof. revert c. apply Forall_forall. by repeat constructor. Qed.

Lemma lowercase_class c : c ∈ Str.ascii_lowercase -> Spec.is_lowercase c = true.
Proof. revert c. apply Forall_forall. by repeat constructor. Qed.

Lemma digits_class c : c ∈ Str.digits -> Spec.is_ascii_digit c = true.
Proof. revert c. apply Forall_forall. by repeat constructor. Qed.

Lemma symbols_class c : c ∈ str "!@#$%^&*" -> Spec.is_symbol c = true.
Proof. revert c. apply Forall_forall. by repeat constructor. Qed.

Lemma all_chars_alphabet c :
  c ∈ Str.ascii_letters ++ Str.digits ++ str "!@#$%^&*" ->
  Spec.in_alphabet c = true.
Proof. revert c. apply Forall_forall. by repeat constructor. Qed.

Lemma alphabet_printable c :
  Spec.in_alphabet c = true -> (33 <= c <= 122)%N.
Proof.
  unfold Spec.in_alphabet, Spec.is_uppercase, Spec.is_lowercase,
    Spec.is_ascii_digit, Spec.is_symbol, Spec.symbol_set.
  rewrite !orb_true_iff, !andb_true_iff, !N.leb_le, bool_decide_eq_true.
  rewrite !elem_of_cons, elem_of_nil. lia.
Qed.

(** ** Strength checking *)

Lemma contains_intro (test : char -> bool) (p : pystr) (c : char) :
  c ∈ p -> test c = true -> Spec.contains test p = true.
Proof.
  intros Hin Hc. apply existsb_exists. exists c.
  split; [by apply list_elem_of_In | done].
Qed.

(** A successful run, in the specification's vocabulary. *)
Lemma generate_meets_rules (n : Z) (t : tape) :
  8 <= n ->
  exists pw t',
    generate_secure_password n t = Ok (pw, t')
    /\ len pw = n
    /\ Spec.contains Spec.is_uppercase pw = true
    /\ Spec.contains Spec.is_lowercase pw = true
    /\ Spec.contains Spec.is_ascii_digit pw = true
    /\ Spec.contains Spec.is_symbol pw = true
    /\ Forall (fun c => Spec.in_alphabet c = true) pw.
Proof.
  intros Hn.
  destruct (generate_shape n t Hn)
    as (u & l & d & s & rest & pw & t' & Hr & Hu & Hl & Hd & Hs & Hlen & Hrest & Hperm).
  exists pw, t'. split_and!; [done | ..].
  - unfold len. rewrite (Permutation_length Hperm). simpl. rewrite Hlen. lia.
  - apply (contains_intro _ _ u); [|by apply uppercase_class].
    rewrite Hperm, !elem_of_cons. tauto.
  - apply (contains_intro _ _ l); [|by apply lowercase_class].
    rewrite Hperm, !elem_of_cons. tauto.
  - apply (contains_intro _ _ d); [|by apply digits_class].
    rewrite Hperm, !elem_of_cons. tauto.
  - apply (contains_intro _ _ s); [|by apply symbols_class].
    rewrite Hperm, !elem_of_cons. tauto.
  - apply Forall_forall. intros c Hc. rewrite Hperm, !elem_of_cons in Hc.
    apply all_chars_alphabet.
    destruct Hc as [->|[->|[->|[->|Hc]]]].
    + unfold Str.ascii_letters. rewrite !elem_of_app. auto.
    + unfold Str.ascii_letters. rewrite !elem_of_app. auto.
    + rewrite !elem_of_app. auto.
    + rewrite !elem_of_app. auto.
    + by apply (proj1 (Forall_forall _ _) Hrest).
Qed.

Section CheckerFacts.

Variable unicode_Nd : char -> bool.
Implicit Types (p s : pystr) (pat : Re.pattern).

(** [re.search] finds a match exactly when some character of the
    subject is in the class. *)
Lemma search_from_contains pat pos s :
  is_Some (Re.search_from unicode_Nd pat pos s)
  <-> Spec.contains (Re.matches unicode_Nd pat) s = true.
Proof.
  revert pos. induction s as [|c s IH]; intros pos; simpl.
  - split; [by intros [? ?] | done].
  - destruct (Re.matches unicode_Nd pat c); simpl; [|apply IH].
    split; eauto.
Qed.

Lemma search_contains pat s :
  is_Some (Re.search unicode_Nd pat s)
  <-> Spec.contains (Re.matches unicode_Nd pat) s = true.
Proof. apply search_from_contains. Qed.

Lemma check_step_contains p score feedback pat message :
  check_step unicode_Nd p (score, feedback) (pat, message) =
    if Spec.contains (Re.matches unicode_Nd pat) p
    then (score + 1, feedback)
    else (score, feedback ++ [message]).
Proof.
  unfold check_step.
  pose proof (search_contains pat p) as H.
  destruct (Re.search unicode_Nd pat p) as [k|].
  - rewrite (proj1 H); eauto.
  - destruct (Spec.contains _ p); [|done].
    destruct (proj2 H eq_refl) as [? ?]; done.
Qed.

(** The patterns of [checks] denote the specification's classes. *)
Lemma checks_rules :
  Forall2 (fun chk r => Re.matches unicode_Nd chk.1 = r.1 /\ chk.2 = r.2)
    checks (Spec.rules unicode_Nd).
Proof. repeat constructor. Qed.

(** The loop over [checks], from any state. *)
Lemma checks_loop p score feedback :
  fold_left (check_step unicode_Nd p) checks (score, feedback) =
    (score + Spec.class_points unicode_Nd p,
     feedback ++ Spec.class_feedback unicode_Nd p).
Proof.
  unfold Spec.class_points, Spec.class_feedback, Spec.rules, checks.
  cbn [fold_left foldr flat_map fst snd].
  change Spec.is_uppercase
    with (Re.matches unicode_Nd (Re.Range (ord "A") (ord "Z"))).
  change Spec.is_lowercase
    with (Re.matches unicode_Nd (Re.Range (ord "a") (ord "z"))).
  change (Spec.is_digit unicode_Nd) with (Re.matches unicode_Nd Re.Digit).
  change Spec.is_symbol
    with (Re.matches unicode_Nd (Re.CharSet (str "!@#$%^&*"))).
  repeat (rewrite check_step_contains;
          match goal with
          | |- context [check_step _ _ (if ?b then _ else _) _] => destruct b
          | |- context [if ?b then _ else _] => destruct b
          end).
  all: cbn [Spec.b2z app]; rewrite <- ?app_assoc; cbn [app];
    rewrite ?app_nil_r; f_equal; lia.
Qed.

Lemma check_password_strength_unfold p :
  check_password_strength unicode_Nd p =
    let score := (length_check p).1 + Spec.class_points unicode_Nd p in
    (score,
     (length_check p).2 ++ Spec.class_feedback unicode_Nd p,
     strength_level score).
Proof.
  unfold check_password_strength.
  destruct (length_check p) as [score feedback].
  by rewrite checks_loop.
Qed.

End CheckerFacts.

(** Case analysis on the two length tests and the four class tests of a
    password. *)
Ltac checker_cases p :=
  rewrite ?check_password_strength_unfold;
  unfold score_of, feedback_of, strength_of, Spec.satisfied_checks,
    length_check, Spec.class_points, Spec.class_feedback, Spec.rules;
  cbn [foldr flat_map fst snd];
  let H12 := fresh "H12" in
  let H8 := fresh "H8" in
  destruct (Z.leb_spec 12 (len p)) as [H12|H12];
  destruct (Z.leb_spec 8 (len p)) as [H8|H8];
  try (exfalso; lia);
  destruct (Spec.contains Spec.is_uppercase p);
  destruct (Spec.contains Spec.is_lowercase p);
  destruct (Spec.contains (Spec.is_digit _) p);
  destruct (Spec.contains Spec.is_symbol p);
  cbn [Spec.b2z app fst snd].

(** A message that differs from every element of an explicit list. *)
Ltac not_among :=
  let H := fresh in
  intros H; apply list_elem_of_In in H; simpl in H;
  intuition discriminate.

Section CheckerClaims.

Variable unicode_Nd : char -> bool.
Implicit Types (p : pystr).

(** C1. For every password, the empty one included, the score is between
    0 and 6, and the tier is "Weak" exactly for a score of at most 2,
    "Moderate" exactly for a score from 3 to 5, and "Strong" exactly for
    a score of at least 6. *)
Theorem score_range_and_tier p :
  let r := check_password_strength unicode_Nd p in
  0 <= score_of r <= 6
  /\ (strength_of r = "Weak"%string <-> score_of r <= 2)
  /\ (strength_of r = "Moderate"%string <-> 3 <= score_of r <= 5)
  /\ (strength_of r = "Strong"%string <-> 6 <= score_of r).
Proof.
  cbv zeta. checker_cases p.
  all: vm_compute; intuition (congruence || discriminate).
Qed.

(** C5. The length branch gives 2 points from 12 characters on, 1 point
    from 8 to 11 characters, and below 8 characters no point and the
    length message, which then heads the feedback. The remaining points
    and messages are those of the character classes. *)
Theorem length_points p :
  let r := check_password_strength unicode_Nd p in
  (12 <= len p
     /\ score_of r = 2 + Spec.class_points unicode_Nd p
     /\ feedback_of r = Spec.class_feedback unicode_Nd p
     /\ length_message ∉ feedback_of r)
  \/ (8 <= len p < 12
     /\ score_of r = 1 + Spec.class_points unicode_Nd p
     /\ feedback_of r = Spec.class_feedback unicode_Nd p
     /\ length_message ∉ feedback_of r)
  \/ (len p < 8
     /\ score_of r = 0 + Spec.class_points unicode_Nd p
     /\ feedback_of r = length_message :: Spec.class_feedback unicode_Nd p).
Proof.
  cbv zeta. checker_cases p.
  all: first
    [ left; repeat split; try lia; try reflexivity; by not_among
    | right; left; repeat split; try lia; try reflexivity; by not_among
    | right; right; repeat split; try lia; reflexivity ].
Qed.

(** C6. The four class rules are checked in the order uppercase,
    lowercase, digit, symbol. A rule is satisfied when the password
    contains a character of its class; from any score and feedback
    reached by the length branch, each satisfied rule adds one point and
    each unsatisfied rule appends its message, so the class messages
    follow the length message, if any, in rule order. *)
Theorem class_rules_in_order p :
  let r := check_password_strength unicode_Nd p in
  Forall2 (fun chk rule =>
             chk.2 = rule.2
             /\ (is_Some (Re.search unicode_Nd chk.1 p)
                 <-> Spec.contains rule.1 p = true))
    checks (Spec.rules unicode_Nd)
  /\ (forall score feedback,
        fold_left (check_step unicode_Nd p) checks (score, feedback) =
          (score + Spec.class_points unicode_Nd p,
           feedback ++ Spec.class_feedback unicode_Nd p))
  /\ score_of r = (length_check p).1 + Spec.class_points unicode_Nd p
  /\ feedback_of r = (length_check p).2 ++ Spec.class_feedback unicode_Nd p.
Proof.
  cbv zeta. split; [|split].
  - eapply Forall2_impl; [apply checks_rules|].
    intros chk rule [Hm Hmsg]. split; [done|].
    rewrite <- Hm. apply search_contains.
  - apply checks_loop.
  - by rewrite check_password_strength_unfold.
Qed.

(** C7. The feedback has 5 minus the number of satisfied checks among
    length >= 8 and the four classes: the length message occurs once
    when the password is shorter than 8 and not otherwise, the message
    of a class occurs once when the class is missing and not otherwise,
    and the feedback is empty exactly when the length is at least 8 and
    all four classes are present. *)
Theorem feedback_count p :
  let r := check_password_strength unicode_Nd p in
  Z.of_nat (length (feedback_of r)) = 5 - Spec.satisfied_checks unicode_Nd p
  /\ count_occ string_dec (feedback_of r) length_message
     = (if len p <? 8 then 1%nat else 0%nat)
  /\ Forall (fun rule =>
               count_occ string_dec (feedback_of r) rule.2
               = if Spec.contains rule.1 p then 0%nat else 1%nat)
       (Spec.rules unicode_Nd)
  /\ (feedback_of r = []
      <-> 8 <= len p
          /\ Forall (fun rule => Spec.contains rule.1 p = true)
               (Spec.rules unicode_Nd)).
Proof.
  cbv zeta. rewrite Z.ltb_antisym.
  unfold Spec.rules. rewrite !Forall_cons, !Forall_nil.
  cbn [fst snd].
  checker_cases p.
  all: cbn [length negb];
    repeat match goal with
      | |- context [count_occ ?d ?l ?x] =>
          let v := eval vm_compute in (count_occ d l x) in
          change (count_occ d l x) with v
      end;
    intuition (lia || discriminate || congruence).
Qed.

(** C9. The three worked examples: "abc" scores 1 and is "Weak", with
    the length, uppercase, digit and symbol messages; "Password1!" scores
    5 with no feedback and is "Moderate"; "Str0ng&Password123" scores 6
    with no feedback and is "Strong". *)
Theorem concrete_cases :
  check_password_strength unicode_Nd (str "abc")
    = (1, [ length_message; "Add uppercase letter"; "Include digit";
            "Add special character" ]%string, "Weak"%string)
  /\ check_password_strength unicode_Nd (str "Password1!")
    = (5, [], "Moderate"%string)
  /\ check_password_strength unicode_Nd (str "Str0ng&Password123")
    = (6, [], "Strong"%string).
Proof. by vm_compute. Qed.

End CheckerClaims.


(** ** Claims on the generator *)

(** C2. The generator raises exactly when the requested length is below
    8, and the exception is the [ValueError] of the length guard; from 8
    on it returns a string whatever the random draws are. The checker
    returns a score, a feedback list and a tier for every string. *)
Theorem invalid_length_iff (n : Z) (t : tape) :
  (n < 8 <-> exists e, generate_secure_password n t = Raise e)
  /\ (n < 8 <-> exists msg, generate_secure_password n t = Raise (ValueError msg))
  /\ (8 <= n <-> exists pw t', generate_secure_password n t = Ok (pw, t'))
  /\ (forall unicode_Nd p, exists score feedback strength,
        check_password_strength unicode_Nd p = (score, feedback, strength)).
Proof.
  assert (forall unicode_Nd p, exists score feedback strength,
             check_password_strength unicode_Nd p = (score, feedback, strength))
    as Hcheck.
  { intros nd p. destruct (check_password_strength nd p) as [[sc fb] st]. eauto. }
  destruct (Z.lt_ge_cases n 8) as [Hn|Hn].
  - rewrite (generate_short n t Hn).
    split_and!; [split; eauto | split; eauto | | done].
    split; [lia | by intros (pw & t' & ?)].
  - destruct (generate_shape n t Hn) as (u & l & d & s & rest & pw & t' & Hr & _).
    rewrite Hr. split_and!; [| | split; eauto | done].
    + split; [lia | by intros [? ?]].
    + split; [lia | by intros [? ?]].
Qed.

(** C3. From 8 on, whatever the random draws are, the generator returns
    a string of exactly the requested number of characters. *)
Theorem generated_length (n : Z) (t : tape) :
  8 <= n ->
  exists pw t', generate_secure_password n t = Ok (pw, t') /\ len pw = n.
Proof.
  intros Hn.
  destruct (generate_meets_rules n t Hn) as (pw & t' & Hr & Hlen & _).
  by exists pw, t'.
Qed.

Lemma generated_length_witness :
  8 <= 8
  /\ exists pw t',
       generate_secure_password 8 (fun i => i) = Ok (pw, t') /\ len pw = 8.
Proof. split; [lia | apply (generated_length 8 (fun i => i)); lia]. Defined.

(** C4. From 8 on, whatever the random draws are, the returned string
    contains an uppercase letter, a lowercase letter, a digit and a
    symbol of [!@#$%^&*]. *)
Theorem generated_classes (n : Z) (t : tape) :
  8 <= n ->
  exists pw t',
    generate_secure_password n t = Ok (pw, t')
    /\ Spec.contains Spec.is_uppercase pw = true
    /\ Spec.contains Spec.is_lowercase pw = true
    /\ Spec.contains Spec.is_ascii_digit pw = true
    /\ Spec.contains Spec.is_symbol pw = true.
Proof.
  intros Hn.
  destruct (generate_meets_rules n t Hn)
    as (pw & t' & Hr & _ & Hu & Hl & Hd & Hs & _).
  by exists pw, t'.
Qed.

Lemma generated_classes_witness :
  8 <= 9
  /\ exists pw t',
       generate_secure_password 9 (fun i => (3 * i + 1)%nat) = Ok (pw, t')
       /\ Spec.contains Spec.is_uppercase pw = true
       /\ Spec.contains Spec.is_lowercase pw = true
       /\ Spec.contains Spec.is_ascii_digit pw = true
       /\ Spec.contains Spec.is_symbol pw = true.
Proof.
  split; [lia | apply (generated_classes 9 (fun i => (3 * i + 1)%nat)); lia].
Defined.

Lemma contains_ascii_digit (unicode_Nd : char -> bool) (p : pystr) :
  Spec.contains Spec.is_ascii_digit p = true ->
  Spec.contains (Spec.is_digit unicode_Nd) p = true.
Proof.
  unfold Spec.contains. rewrite !existsb_exists.
  intros (c & Hin & Hc). exists c. split; [done|].
  unfold Spec.is_digit. by rewrite Hc.
Qed.

(** C8. From 8 on, whatever the random draws are, the returned string
    meets the length check and the four class rules of the checker, so
    the checker gives it a score of at least 5 and no feedback. *)
Theorem generated_passes_checker (unicode_Nd : char -> bool) (n : Z) (t : tape) :
  8 <= n ->
  exists pw t',
    generate_secure_password n t = Ok (pw, t')
    /\ 8 <= len pw
    /\ Forall (fun rule => Spec.contains rule.1 pw = true) (Spec.rules unicode_Nd)
    /\ 5 <= score_of (check_password_strength unicode_Nd pw)
    /\ feedback_of (check_password_strength unicode_Nd pw) = [].
Proof.
  intros Hn.
  destruct (generate_meets_rules n t Hn)
    as (pw & t' & Hr & Hlen & Hu & Hl & Hd & Hs & _).
  apply (contains_ascii_digit unicode_Nd) in Hd.
  exists pw, t'. split_and!; [done | lia | by repeat constructor | ..].
  all: rewrite check_password_strength_unfold;
    unfold score_of, feedback_of, length_check, Spec.class_points,
      Spec.class_feedback, Spec.rules;
    cbn [foldr flat_map fst snd]; rewrite Hu, Hl, Hd, Hs;
    destruct (Z.leb_spec 12 (len pw)); destruct (Z.leb_spec 8 (len pw));
    cbn [Spec.b2z app fst snd]; try lia; done.
Qed.

Lemma generated_passes_checker_witness :
  8 <= 8
  /\ exists pw t',
       generate_secure_password 8 (fun i => (5 * i + 2)%nat) = Ok (pw, t')
       /\ 8 <= len pw
       /\ Forall (fun rule => Spec.contains rule.1 pw = true)
            (Spec.rules (fun _ => false))
       /\ 5 <= score_of (check_password_strength (fun _ => false) pw)
       /\ feedback_of (check_password_strength (fun _ => false) pw) = [].
Proof.
  split; [lia|].
  apply (generated_passes_checker (fun _ => false) 8 (fun i => (5 * i + 2)%nat)).
  lia.
Defined.

(** C10. A call without argument takes the default length 12: it does
    not raise and returns 12 characters whatever the random draws are.
    Every character of a returned password, for any argument, is an ASCII
    letter, a digit or one of [!@#$%^&*], hence a printable character
    that is not white space. *)
Theorem default_length_and_alphabet :
  default_length = 12
  /\ (forall t, exists pw t',
        call_generate_secure_password None t = Ok (pw, t') /\ len pw = 12)
  /\ (forall arg t,
        match call_generate_secure_password arg t with
        | Ok (pw, _) =>
            Forall (fun c => Spec.in_alphabet c = true /\ (33 <= c <= 122)%N) pw
        | Raise _ => True
        end).
Proof.
  split_and!; [done | |].
  - intros t.
    destruct (generate_meets_rules 12 t) as (pw & t' & Hr & Hlen & _); [lia|].
    by exists pw, t'.
  - intros arg t. unfold call_generate_secure_password.
    destruct (Z.lt_ge_cases (default default_length arg) 8) as [Hn|Hn].
    + by rewrite (generate_short _ t Hn).
    + destruct (generate_meets_rules _ t Hn)
        as (pw & t' & Hr & _ & _ & _ & _ & _ & Hall).
      rewrite Hr. eapply Forall_impl; [exact Hall|].
      intros c Hc. split; [done | by apply alphabet_printable].
Qed.


(** * Further properties of the checker *)

Lemma contains_Permutation (test : char -> bool) (p q : pystr) :
  p ≡ₚ q -> Spec.contains test p = Spec.contains test q.
Proof.
  intros Hpq. apply Bool.eq_iff_eq_true. unfold Spec.contains.
  rewrite !existsb_exists.
  split; intros (c & Hin & Hc); exists c; (split; [|done]);
    apply list_elem_of_In; apply list_elem_of_In in Hin.
  - by rewrite <- Hpq.
  - by rewrite Hpq.
Qed.

Lemma contains_app (test : char -> bool) (p q : pystr) :
  Spec.contains test (p ++ q) = Spec.contains test p || Spec.contains test q.
Proof. apply existsb_app. Qed.

Lemma contains_none (test : char -> bool) (p : pystr) :
  Forall (fun c => test c = false) p -> Spec.contains test p = false.
Proof.
  induction 1 as [|c p Hc _ IH]; [done|].
  simpl. by rewrite Hc, IH.
Qed.

Lemma class_piece_sublist (a b : bool) (m : string) :
  sublist (if a || b then [] else [m]) (if a then [] else [m]).
Proof. destruct a, b; simpl; by repeat constructor. Qed.

Lemma b2z_orb_le (a b : bool) : Spec.b2z a <= Spec.b2z (a || b).
Proof. destruct a, b; simpl; lia. Qed.

Section CheckerExtras.

Variable unicode_Nd : char -> bool.
Implicit Types (p q : pystr).

(** X1. The evaluation depends only on which characters occur and how
    many, not on their order: rearranged passwords get the same score,
    feedback and tier. *)
Theorem check_rearranged p q :
  p ≡ₚ q ->
  check_password_strength unicode_Nd p = check_password_strength unicode_Nd q.
Proof.
  intros Hpq. rewrite !check_password_strength_unfold.
  unfold length_check, len, Spec.class_points, Spec.class_feedback, Spec.rules.
  cbn [foldr flat_map fst snd].
  rewrite (Permutation_length Hpq).
  by rewrite !(contains_Permutation _ p q Hpq).
Qed.

(** X2. Adding characters to a password never lowers its score and
    never adds a suggestion: the feedback of the longer password is the
    feedback of the shorter one with some messages left out. *)
Theorem check_extend p q :
  score_of (check_password_strength unicode_Nd p)
    <= score_of (check_password_strength unicode_Nd (p ++ q))
  /\ sublist (feedback_of (check_password_strength unicode_Nd (p ++ q)))
       (feedback_of (check_password_strength unicode_Nd p)).
Proof.
  rewrite !check_password_strength_unfold.
  unfold score_of, feedback_of, Spec.class_points, Spec.class_feedback,
    Spec.rules.
  cbn [foldr flat_map fst snd]. rewrite !contains_app.
  assert (len p <= len (p ++ q)) as Hlen.
  { unfold len. rewrite length_app. lia. }
  split.
  - pose proof (b2z_orb_le (Spec.contains Spec.is_uppercase p)
                  (Spec.contains Spec.is_uppercase q)).
    pose proof (b2z_orb_le (Spec.contains Spec.is_lowercase p)
                  (Spec.contains Spec.is_lowercase q)).
    pose proof (b2z_orb_le (Spec.contains (Spec.is_digit unicode_Nd) p)
                  (Spec.contains (Spec.is_digit unicode_Nd) q)).
    pose proof (b2z_orb_le (Spec.contains Spec.is_symbol p)
                  (Spec.contains Spec.is_symbol q)).
    unfold length_check.
    destruct (Z.leb_spec 12 (len p)), (Z.leb_spec 8 (len p)),
      (Z.leb_spec 12 (len (p ++ q))), (Z.leb_spec 8 (len (p ++ q)));
      cbn [fst]; lia.
  - repeat apply sublist_app; try apply class_piece_sublist; [|done].
    unfold length_check.
    destruct (Z.leb_spec 12 (len p)), (Z.leb_spec 8 (len p)),
      (Z.leb_spec 12 (len (p ++ q))), (Z.leb_spec 8 (len (p ++ q)));
      cbn [snd app]; try lia; by repeat constructor.
Qed.

(** X3. A password is "Strong" exactly when it has at least 12
    characters and a character of each of the four classes, that is,
    when it has at least 12 characters and gets no suggestion. *)
Theorem strong_iff p :
  let r := check_password_strength unicode_Nd p in
  (strength_of r = "Strong"%string
   <-> 12 <= len p
       /\ Forall (fun rule => Spec.contains rule.1 p = true)
            (Spec.rules unicode_Nd))
  /\ (strength_of r = "Strong"%string
      <-> 12 <= len p /\ feedback_of r = []).
Proof.
  cbv zeta. unfold Spec.rules. rewrite !Forall_cons, !Forall_nil.
  cbn [fst snd]. checker_cases p.
  all: vm_compute strength_level;
    intuition (lia || discriminate || congruence).
Qed.

(** X4. The score and the number of suggestions add up to 5 for a
    password of fewer than 12 characters and to 6 from 12 characters
    on. *)
Theorem score_plus_feedback p :
  let r := check_password_strength unicode_Nd p in
  score_of r + Z.of_nat (length (feedback_of r))
  = 5 + Spec.b2z (12 <=? len p).
Proof.
  cbv zeta. checker_cases p; cbn [length Spec.b2z]; lia.
Qed.

(** X5. The letter and symbol rules are ASCII only: a password made of
    characters beyond ASCII (accented or non-Latin letters, for
    instance) satisfies none of the uppercase, lowercase and symbol
    rules, gets their three messages, scores at most 3 and is never
    "Strong". *)
Theorem non_ascii_password p :
  Forall (fun c => (128 <= c)%N) p ->
  let r := check_password_strength unicode_Nd p in
  Spec.contains Spec.is_uppercase p = false
  /\ Spec.contains Spec.is_lowercase p = false
  /\ Spec.contains Spec.is_symbol p = false
  /\ sublist [ "Add uppercase letter"; "Add lowercase letter";
               "Add special character" ]%string (feedback_of r)
  /\ score_of r <= 3
  /\ strength_of r <> "Strong"%string.
Proof.
  intros Hp. cbv zeta.
  assert (Spec.contains Spec.is_uppercase p = false) as Hu.
  { apply contains_none. eapply Forall_impl; [exact Hp|].
    intros c Hc. simpl in Hc. unfold Spec.is_uppercase.
    apply andb_false_iff. right. apply N.leb_gt. lia. }
  assert (Spec.contains Spec.is_lowercase p = false) as Hl.
  { apply contains_none. eapply Forall_impl; [exact Hp|].
    intros c Hc. simpl in Hc. unfold Spec.is_lowercase.
    apply andb_false_iff. right. apply N.leb_gt. lia. }
  assert (Spec.contains Spec.is_symbol p = false) as Hs.
  { apply contains_none. eapply Forall_impl; [exact Hp|].
    intros c Hc. simpl in Hc. unfold Spec.is_symbol, Spec.symbol_set.
    apply bool_decide_eq_false. rewrite !elem_of_cons, elem_of_nil. lia. }
  split_and!; [done | done | done | ..].
  all: rewrite check_password_strength_unfold;
    unfold score_of, feedback_of, strength_of, length_check,
      Spec.class_points, Spec.class_feedback, Spec.rules;
    cbn [foldr flat_map fst snd]; rewrite Hu, Hl, Hs;
    destruct (Z.leb_spec 12 (len p)); destruct (Z.leb_spec 8 (len p));
    destruct (Spec.contains (Spec.is_digit unicode_Nd) p);
    cbn [Spec.b2z app fst snd].
  all: first [ lia | by repeat constructor | by vm_compute ].
Qed.

End CheckerExtras.

Lemma non_ascii_password_witness :
  Forall (fun c => (128 <= c)%N) [201; 233; 1633]%N
  /\ let r := check_password_strength (fun c => (1632 <=? c)%N && (c <=? 1641)%N)
               [201; 233; 1633]%N in
     Spec.contains Spec.is_uppercase [201; 233; 1633]%N = false
     /\ Spec.contains Spec.is_lowercase [201; 233; 1633]%N = false
     /\ Spec.contains Spec.is_symbol [201; 233; 1633]%N = false
     /\ sublist [ "Add uppercase letter"; "Add lowercase letter";
                  "Add special character" ]%string (feedback_of r)
     /\ score_of r <= 3
     /\ strength_of r <> "Strong"%string.
Proof.
  assert (Forall (fun c => (128 <= c)%N) [201; 233; 1633]%N) as H
    by (repeat constructor; lia).
  split; [exact H|].
  apply (non_ascii_password (fun c => (1632 <=? c)%N && (c <=? 1641)%N) _ H).
Defined.

Lemma check_rearranged_witness :
  str "ab" ≡ₚ str "ba"
  /\ check_password_strength (fun _ => false) (str "ab")
     = check_password_strength (fun _ => false) (str "ba").
Proof.
  assert (str "ab" ≡ₚ str "ba") as H by apply perm_swap.
  split; [exact H | apply (check_rearranged (fun _ => false) _ _ H)].
Defined.

(** * Properties of the generator and of the page script *)

Import Session.

(** X6. The tier of a generated password is fixed by the requested
    length: from 8 to 11 characters the checker gives it score 5 and
    "Moderate", from 12 characters on score 6 and "Strong", in both cases
    without feedback. *)
Theorem generated_tier (unicode_Nd : char -> bool) (n : Z) (t : tape) :
  8 <= n ->
  exists pw t',
    generate_secure_password n t = Ok (pw, t')
    /\ check_password_strength unicode_Nd pw
       = if n <? 12 then (5, [], "Moderate"%string)
         else (6, [], "Strong"%string).
Proof.
  intros Hn.
  destruct (generate_meets_rules n t Hn)
    as (pw & t' & Hr & Hlen & Hu & Hl & Hd & Hs & _).
  apply (contains_ascii_digit unicode_Nd) in Hd.
  exists pw, t'. split; [done|].
  rewrite check_password_strength_unfold.
  unfold length_check, Spec.class_points, Spec.class_feedback, Spec.rules.
  cbn [foldr flat_map fst snd]. rewrite Hu, Hl, Hd, Hs, Hlen.
  destruct (Z.ltb_spec n 12); destruct (Z.leb_spec 12 n);
    destruct (Z.leb_spec 8 n); try lia; reflexivity.
Qed.

Lemma generated_tier_witness :
  8 <= 12
  /\ exists pw t',
       generate_secure_password 12 (fun i => (11 * i + 4)%nat) = Ok (pw, t')
       /\ check_password_strength (fun _ => false) pw
          = if 12 <? 12 then (5, [], "Moderate"%string)
            else (6, [], "Strong"%string).
Proof.
  split; [lia|].
  apply (generated_tier (fun _ => false) 12 (fun i => (11 * i + 4)%nat)). lia.
Defined.

(** ** Slices *)

Lemma slice_first_four {A} (x : list A) : slice x None (Some 4) = take 4 x.
Proof.
  unfold slice, slice_index. cbn [from_option].
  change (4 <? 0) with false. change (Z.to_nat 0) with 0%nat.
  cbv iota. rewrite drop_0.
  destruct (Z.le_gt_cases 4 (Z.of_nat (length x))) as [H|H].
  - replace (Z.to_nat (Z.min 4 (Z.of_nat (length x)) - 0)) with 4%nat by lia.
    done.
  - replace (Z.to_nat (Z.min 4 (Z.of_nat (length x)) - 0))
      with (length x) by lia.
    rewrite !firstn_all2; [done | lia | lia].
Qed.

Lemma slice_last_four {A} (x : list A) :
  slice x (Some (-4)) None = drop (length x - 4) x.
Proof.
  unfold slice, slice_index. cbn [from_option].
  change (-4 <? 0) with true. cbv iota.
  replace (Z.to_nat (Z.max (-4 + Z.of_nat (length x)) 0))
    with (length x - 4)%nat by lia.
  apply firstn_all2. rewrite length_drop. lia.
Qed.

(** X7. The side bar shows the last four characters of a recorded
    password. The shown part is the end of the password and has four
    characters, or all of them when the password has fewer; so a password
    of at most four characters is shown in full, and only such a one. *)
Theorem history_suffix_shown (pwd : pystr) :
  history_suffix pwd `suffix_of` pwd
  /\ length (history_suffix pwd) = Nat.min 4 (length pwd)
  /\ (history_suffix pwd = pwd <-> len pwd <= 4).
Proof.
  unfold history_suffix. rewrite slice_last_four.
  split_and!.
  - apply suffix_drop.
  - rewrite length_drop. lia.
  - unfold len. split.
    + intros Heq. apply (f_equal length) in Heq.
      rewrite length_drop in Heq. lia.
    + intros Hle. replace (length pwd - 4)%nat with 0%nat by lia. done.
Qed.

(** ** Session state *)

Lemma take_app_cons_take {A} (a : list A) (x : A) (h : list A) :
  (1 <= length a)%nat ->
  take 5 (a ++ x :: take 4 h) = take 5 (a ++ x :: h).
Proof.
  intros Ha. rewrite !take_app. f_equal.
  destruct (5 - length a)%nat as [|m] eqn:Hm; [done|].
  cbn [take]. f_equal. rewrite take_take. f_equal. lia.
Qed.

(** X8. Initialising the session creates the history (empty) and the
    input (the empty string) when they are missing, never changes a key
    that is already there, and changes nothing when run again. *)
Theorem init_session_keeps (ss : state) :
  (forall k v, ss !! k = Some v -> init_session ss !! k = Some v)
  /\ init_session ss !! "password_history"%string
     = Some (default (VList []) (ss !! "password_history"%string))
  /\ init_session ss !! "pwd_input"%string
     = Some (default (VStr []) (ss !! "pwd_input"%string))
  /\ (forall k, k <> "password_history"%string -> k <> "pwd_input"%string ->
      init_session ss !! k = ss !! k)
  /\ init_session (init_session ss) = init_session ss.
Proof.
  unfold init_session.
  destruct (ss !! "password_history"%string) as [vh|] eqn:Hh;
    destruct (ss !! "pwd_input"%string) as [vp|] eqn:Hp;
    simplify_map_eq; split_and!; intros; simplify_map_eq; try done.
  all: destruct (decide (k = "pwd_input"%string));
    destruct (decide (k = "password_history"%string)); by simplify_map_eq.
Qed.

(** X9. The callback of the button, for a stored length [n]: below 8 it
    raises the [ValueError] of the generator and the session state stays
    as it was; from 8 on it stores a generated password of [n]
    characters of the alphabet under [pwd_input] and changes no other
    key. *)
Theorem update_password_outcome (ss : state) (n : Z) (t : tape) :
  ss !! "gen_length"%string = Some (VInt n) ->
  (n < 8
   /\ update_password ss t
      = (Failed (Core (ValueError
                         "Password length should be at least 8 characters")) ss,
         t))
  \/ (8 <= n
      /\ exists pw t',
           update_password ss t
           = (Done tt (<["pwd_input"%string := VStr pw]> ss), t')
           /\ len pw = n
           /\ Forall (fun c => Spec.in_alphabet c = true) pw).
Proof.
  intros Hg. unfold update_password. rewrite Hg.
  destruct (Z.lt_ge_cases n 8) as [Hn|Hn].
  - left. split; [done|]. by rewrite (generate_short n t Hn).
  - right. split; [done|].
    destruct (generate_meets_rules n t Hn)
      as (pw & t' & Hr & Hlen & _ & _ & _ & _ & Hall).
    exists pw, t'. by rewrite Hr.
Qed.

Lemma update_password_outcome_witness :
  let ss : state := {[ "gen_length"%string := VInt 12 ]} in
  let t : tape := fun i => (3 * i)%nat in
  ss !! "gen_length"%string = Some (VInt 12)
  /\ ((12 < 8
       /\ update_password ss t
          = (Failed (Core (ValueError
                             "Password length should be at least 8 characters")) ss,
             t))
      \/ (8 <= 12
          /\ exists pw t',
               update_password ss t
               = (Done tt (<["pwd_input"%string := VStr pw]> ss), t')
               /\ len pw = 12
               /\ Forall (fun c => Spec.in_alphabet c = true) pw)).
Proof.
  cbv zeta.
  assert (({[ "gen_length"%string := VInt 12 ]} : state) !! "gen_length"%string
          = Some (VInt 12)) as H by reflexivity.
  split; [exact H|].
  apply (update_password_outcome _ 12 (fun i => (3 * i)%nat) H).
Defined.

Section SessionFacts.

Variable unicode_Nd : char -> bool.

Lemma analysis_results_state (submitted : bool) (password : pystr)
    (ss : state) (h : list pystr) :
  ss !! "password_history"%string = Some (VList h) ->
  state_of (analysis_results unicode_Nd submitted password ss)
  = if submitted && bool_decide (password <> [])
    then <["password_history"%string := VList (password :: take 4 h)]> ss
    else ss.
Proof.
  intros Hh. unfold analysis_results. rewrite Hh.
  destruct (submitted && bool_decide (password <> [])); [|done].
  cbn [state_of app]. by rewrite slice_first_four.
Qed.

(** X10. After a run of submissions, the history holds the submitted
    passwords that were not empty, the most recent first, followed by
    what it held before, cut to five entries; submissions of the empty
    password leave it as it was. *)
Theorem history_after_submissions (ps : list pystr) (ss : state)
    (h : list pystr) (t : tape) :
  ss !! "password_history"%string = Some (VList h) ->
  (fold_left (step unicode_Nd) (Analyse true <$> ps) (ss, t)).1
    !! "password_history"%string
  = Some (VList (match filter (fun pw => pw <> []) ps with
                 | [] => h
                 | recorded => take 5 (reverse recorded ++ h)
                 end)).
Proof.
  revert ss h. induction ps as [|p ps IH]; intros ss h Hh; [done|].
  cbn [fmap list_fmap fold_left step].
  rewrite (analysis_results_state true p ss h Hh). cbn [andb].
  destruct (decide (p <> [])) as [Hp|Hp].
  - rewrite bool_decide_eq_true_2 by done.
    rewrite filter_cons_True by done.
    rewrite (IH _ (p :: take 4 h)) by by simplify_map_eq.
    unfold pystr in *.
    destruct (filter (fun pw => pw <> []) ps) as [|q qs] eqn:Hf.
    + done.
    + f_equal. f_equal. rewrite (reverse_cons _ p), <- !app_assoc.
      cbn [app]. apply take_app_cons_take.
      rewrite length_reverse. simpl. lia.
  - rewrite bool_decide_eq_false_2 by done.
    rewrite filter_cons_False by done. by apply IH.
Qed.

End SessionFacts.

Lemma history_after_submissions_witness :
  let ss : state := init_session ∅ in
  let ps := [str "abc"; str ""; str "Password1!"] in
  ss !! "password_history"%string = Some (VList [])
  /\ (fold_left (step (fun _ => false)) (Analyse true <$> ps)
        (ss, fun i : nat => i)).1 !! "password_history"%string
     = Some (VList (match filter (fun pw => pw <> []) ps with
                    | [] => []
                    | recorded => take 5 (reverse recorded ++ [])
                    end)).
Proof.
  cbv zeta.
  assert (init_session ∅ !! "password_history"%string = Some (VList [])) as H
    by reflexivity.
  split; [exact H|].
  apply (history_after_submissions (fun _ => false)
           [str "abc"; str ""; str "Password1!"] _ [] (fun i : nat => i) H).
Defined.

Section SessionInvariant.

Variable unicode_Nd : char -> bool.

Lemma step_session_ok (a : action) (ss : state) (t : tape) :
  session_ok ss -> session_ok (step unicode_Nd (ss, t) a).1.
Proof.
  unfold session_ok, history_ok, gen_length_ok, pwd_input_ok.
  intros (Hh & Hg & Hp).
  destruct a as [|v|s| |submitted password]; cbn [step fst].
  - unfold init_session.
    destruct (ss !! "password_history"%string) as [vh|] eqn:Eh;
      destruct (ss !! "pwd_input"%string) as [vp|] eqn:Ep;
      simplify_map_eq; rewrite ?Eh, ?Ep; split_and!; try done.
    all: by simpl; auto with lia.
  - unfold number_input.
    destruct ((8 <=? v) && (v <=? 32)) eqn:Ev; [|done].
    apply andb_true_iff in Ev as [?%Z.leb_le ?%Z.leb_le].
    by simplify_map_eq.
  - unfold text_input. by simplify_map_eq.
  - unfold update_password.
    destruct (ss !! "gen_length"%string) as [[| n |]|] eqn:Eg;
      cbn [state_of fst]; rewrite ?Eg; try done.
    destruct (generate_secure_password n t) as [[pw t']|e]; cbn [state_of fst].
    + by simplify_map_eq.
    + by rewrite Eg.
  - unfold analysis_results.
    destruct (submitted && bool_decide (password <> [])) eqn:Ec; [|done].
    apply andb_true_iff in Ec as [_ Hne%bool_decide_eq_true].
    destruct (ss !! "password_history"%string) as [[| |h]|] eqn:Eh;
      cbn [state_of]; rewrite ?Eh; try done.
    simplify_map_eq. rewrite slice_first_four. split_and!; try done.
    + cbn [app length]. rewrite length_take. lia.
    + constructor; [done|]. apply Forall_take. tauto.
Qed.

Lemma session_reached_ok (actions : list action) (t : tape) :
  session_ok (fold_left (step unicode_Nd) actions (∅, t)).1.
Proof.
  assert (forall st, session_ok st.1 ->
            session_ok (fold_left (step unicode_Nd) actions st).1) as Hgen.
  { induction actions as [|a actions' IH]; intros [ss t0] Hok; [done|].
    cbn [fold_left]. apply IH.
    destruct (step unicode_Nd (ss, t0) a) as [ss1 t1] eqn:Es.
    change ss1 with (ss1, t1).1. rewrite <- Es. by apply step_session_ok. }
  apply Hgen. by unfold session_ok, history_ok, gen_length_ok, pwd_input_ok.
Qed.

(** X11. Whatever the user does, in any order and any number of times
    (running the script, setting the length, typing a password, pressing
    the generate button, submitting the form), starting from a fresh
    session: the history never holds more than five passwords and never
    an empty one, the stored length stays between 8 and 32, and the
    stored input stays a string. *)
Theorem session_invariant (actions : list action) (t : tape) :
  let ss := (fold_left (step unicode_Nd) actions (∅, t)).1 in
  match ss !! "password_history"%string with
  | None => True
  | Some (VList h) => (length h <= 5)%nat /\ Forall (fun pw => pw <> []) h
  | Some _ => False
  end
  /\ match ss !! "gen_length"%string with
     | None => True
     | Some (VInt n) => 8 <= n <= 32
     | Some _ => False
     end
  /\ match ss !! "pwd_input"%string with
     | None => True
     | Some (VStr _) => True
     | Some _ => False
     end.
Proof. apply session_reached_ok. Qed.

(** X12. In a session reached from a fresh one where the length and the
    history are set, pressing the generate button never raises (the
    length error of the generator cannot occur) and stores a password of
    8 to 32 characters, and the analysis of a submission never raises
    either. *)
Theorem reachable_never_raises (actions : list action) (t : tape) :
  let st := fold_left (step unicode_Nd) actions (∅, t) in
  is_Some (st.1 !! "gen_length"%string) ->
  is_Some (st.1 !! "password_history"%string) ->
  (exists pw t',
     update_password st.1 st.2
     = (Done tt (<["pwd_input"%string := VStr pw]> st.1), t')
     /\ 8 <= len pw <= 32)
  /\ (forall submitted password, exists r ss',
        analysis_results unicode_Nd submitted password st.1 = Done r ss').
Proof.
  cbv zeta. pose proof (session_reached_ok actions t) as Hok. revert Hok.
  destruct (fold_left (step unicode_Nd) actions (∅, t)) as [ss t0].
  cbn [fst snd]. unfold session_ok, history_ok, gen_length_ok.
  intros (Hh & Hg & _) [vg Eg] [vh Eh]. rewrite Eg in Hg. rewrite Eh in Hh.
  destruct vg as [| n |]; try done. destruct vh as [| |h]; try done.
  split.
  - destruct (generate_meets_rules n t0) as (pw & t' & Hr & Hlen & _); [lia|].
    exists pw, t'. unfold update_password. rewrite Eg, Hr.
    split; [done | lia].
  - intros submitted password. unfold analysis_results. rewrite Eh.
    destruct (submitted && bool_decide (password <> [])); eauto.
Qed.

(** X13. The colour of the strength bar: red exactly for a score of at
    most 2, amber exactly for a score from 3 to 5, and green exactly for
    a password of at least 12 characters with no suggestion left. *)
Theorem bar_colour_of_check (p : pystr) :
  let r := check_password_strength unicode_Nd p in
  (bar_colour (strength_of r) = "#dc3545"%string <-> score_of r <= 2)
  /\ (bar_colour (strength_of r) = "#ffc107"%string <-> 3 <= score_of r <= 5)
  /\ (bar_colour (strength_of r) = "#28a745"%string
      <-> 12 <= len p /\ feedback_of r = []).
Proof.
  cbv zeta. checker_cases p.
  all: repeat match goal with
         | |- context [bar_colour ?s] =>
             let v := eval vm_compute in (bar_colour s) in
             change (bar_colour s) with v
         end;
    intuition (lia || discriminate || congruence).
Qed.

End SessionInvariant.

Lemma reachable_never_raises_witness :
  let st := fold_left (step (fun _ => false)) [Init; NumberInput 12]
              (∅, fun i : nat => i) in
  is_Some (st.1 !! "gen_length"%string)
  /\ is_Some (st.1 !! "password_history"%string)
  /\ (exists pw t',
        update_password st.1 st.2
        = (Done tt (<["pwd_input"%string := VStr pw]> st.1), t')
        /\ 8 <= len pw <= 32)
  /\ (forall submitted password, exists r ss',
        analysis_results (fun _ => false) submitted password st.1 = Done r ss').
Proof.
  cbv zeta.
  set (st := fold_left (step (fun _ => false)) [Init; NumberInput 12]
               (∅, fun i : nat => i)).
  assert (is_Some (st.1 !! "gen_length"%string)) as Hg
    by (exists (VInt 12); reflexivity).
  assert (is_Some (st.1 !! "password_history"%string)) as Hh
    by (exists (VList []); reflexivity).
  split; [exact Hg|]. split; [exact Hh|].
  exact (reachable_never_raises (fun _ => false) [Init; NumberInput 12]
           (fun i : nat => i) Hg Hh).
Defined.

Example session_run :
  let ss := (fold_left (step (fun _ => false))
               [ Init; NumberInput 9; Generate; Analyse true (str "abc");
                 Analyse true (str ""); Analyse false (str "skipped");
                 Analyse true (str "xyz"); NumberInput 40 ]
               (∅, fun i => (7 * i + 3)%nat)).1 in
  ss !! "password_history"%string = Some (VList [str "xyz"; str "abc"])
  /\ ss !! "gen_length"%string = Some (VInt 9)
  /\ ss !! "pwd_input"%string = Some (VStr (str "7MD0FT7k!")).
Proof. by vm_compute. Qed.
